(** * notebooks/example_recsys_runner.py

    A shallow embedding of the runner script and the properties claimed of
    it.  The script is glue code: it parses the command line, refuses to
    train into a non-empty output directory, globs the data files, builds
    two [DataLoaderWithLen] objects, an XLNet configuration, a model and a
    trainer, and then trains and evaluates.

    Everything the script delegates to a library (argument parsing, the
    file system, petastorm, transformers, the trainer) is an oracle of the
    record [Env] or a [call] logged in the [world]; what the script does
    itself (the guard, [get_files], the two schemas, the [len] keyword of
    [DataLoaderWithLen], the order of the calls, the names it reads) is
    transcribed from the source. *)

From Stdlib Require Import ZArith List String Ascii Bool Lia.
From stdpp Require Import gmap strings list fin_maps sorting.
Import ListNotations.
Local Open Scope string_scope.
Local Open Scope list_scope.

(** ** Python values that the script passes around *)

(** A float literal of the source, kept as written: [0.02] is
    [Dec 2 (-2)], [1e-12] is [Dec 1 (-12)]. *)
Record decimal := Dec { mantissa : Z; exponent10 : Z }.

(** A float computed at run time, as the 64 bits of its IEEE-754 double.
    The script never does arithmetic on one itself. *)
Inductive pyfloat := Float64 (bits : Z).

(** numpy dtypes named by the schemas. *)
Inductive np_dtype := np_int | np_int64 | np_float | np_double.

(** One dimension of a shape tuple: [None] or a fixed size. *)
Definition dim := option Z.

(** [UnischemaField(name, numpy_dtype, shape, codec, nullable)]; the codec
    is [None] in every field of the script. *)
Record UnischemaField := mkField {
  name : string;
  numpy_dtype : np_dtype;
  shape : list dim;
  codec : option string;
  nullable : bool
}.

Definition scalar_shape : list dim := [].
Definition varlen_shape : list dim := [None].

(** The dataclass [ModelArguments] (lines 64-88). *)
Record ModelArguments := {
  model_name_or_path : option string;
  model_type : option string;
  config_name : option string;
  tokenizer_name : option string;
  cache_dir : option string
}.

(** The fields and properties of transformers' [TrainingArguments] that
    [main] reads. *)
Record TrainingArguments := {
  output_dir : string;
  overwrite_output_dir : bool;
  do_train : bool;
  do_eval : bool;
  per_device_train_batch_size : Z;
  per_device_eval_batch_size : Z;
  local_rank : Z;
  seed : Z;
  fp16 : bool;
  device : string;
  n_gpu : Z
}.

(** What [make_batch_reader] was called with; the reader itself lives in
    petastorm. *)
Record Reader := {
  dataset_url_or_urls : list string;
  num_epochs : option Z;
  schema_fields : list UnischemaField
}.

Inductive pyval :=
| PyNone
| PyBool (b : bool)
| PyInt (z : Z)
| PyStr (s : string)
| PyReader (r : Reader)
| PyArgs (a : TrainingArguments).

(** The keyword arguments of [XLNetConfig(...)] at lines 223-237. *)
Record XLNetConfig := {
  product_vocab_size : Z;
  category_vocab_size : Z;
  brand_vocab_size : Z;
  d_model : Z;
  n_layer : Z;
  n_head : Z;
  d_inner : Z;
  ff_activation : string;
  untie_r : bool;
  attn_type : string;
  initializer_range : decimal;
  layer_norm_eps : decimal;
  dropout : decimal
}.

Record XLNetLMHeadModel := { model_config : XLNetConfig }.

(** The instance state of the parent class [petastorm.pytorch.DataLoader]:
    the script only knows what it passed to the parent's constructor.  The
    parent defines no attribute called [len]. *)
Record DataLoader := {
  init_args : list pyval;
  init_kwargs : gmap string pyval
}.

(** An instance of [DataLoaderWithLen] (lines 52-57): the attribute [len]
    set by [__init__] on top of the parent's state. *)
Record DataLoaderWithLen := {
  len : pyval;
  base : DataLoader
}.

Record RecSysTrainer := {
  train_loader : DataLoaderWithLen;
  eval_loader : DataLoaderWithLen;
  model : XLNetLMHeadModel;
  args : TrainingArguments
}.

Inductive loglevel := INFO | WARN.

(** ** Calls into libraries and the state of a run *)

Inductive call :=
| parse_args_into_dataclasses
| logging_basicConfig (level : loglevel)
| logger_warning (fmt : string) (fmt_args : list pyval)
| logger_info (fmt : string) (fmt_args : list pyval)
| set_seed (s : Z)
| make_batch_reader (r : Reader)
| DataLoader_init (a : list pyval) (kw : gmap string pyval)
| XLNetConfig_init (c : XLNetConfig)
| XLNetLMHeadModel_init (c : XLNetConfig)
| RecSysTrainer_init (t : RecSysTrainer)
| trainer_train (model_path : option string)
| trainer_save_model
| trainer_is_world_master
| trainer_evaluate
| tokenizer_save_pretrained (dir : string)
| open_w (path : string)
| writer_write (path : string) (text : string).

Inductive exn :=
| ValueError (msg : string)
| NameError (id : string)
| KeyError (key : string)
| OSError (path : string)
| LibraryError (c : call).

(** What a run has done so far: the library calls it made, oldest first,
    and the files it wrote itself. *)
Record world := {
  calls : list call;
  files : gmap string string
}.

Definition world0 : world := {| calls := []; files := ∅ |}.

(** What the script finds around it when it starts. *)
Record Env := {
  (** the result of [parser.parse_args_into_dataclasses()] on the command
      line *)
  parsed_args : ModelArguments * TrainingArguments;
  (** [os.path.exists] *)
  os_path_exists : string -> bool;
  (** [os.listdir]; [None] when it raises (not a directory, no access) *)
  os_listdir : string -> option (list string);
  (** [os.path.isdir] *)
  os_path_isdir : string -> bool;
  (** [glob.glob] *)
  glob_glob : string -> list string;
  (** whether a library call raises; it depends on the call and its
      arguments, not on what ran before *)
  lib_raises : call -> bool;
  (** the answer of [trainer.is_world_master()], the same each time *)
  is_world_master : bool;
  (** the dict returned by [trainer.evaluate()] *)
  evaluate_output : gmap string pyfloat;
  (** C's [exp] on doubles, and [str] of a float *)
  libm_exp : pyfloat -> pyfloat;
  float_str : pyfloat -> string
}.

Inductive outcome (A : Type) :=
| Returned (a : A)
| Raised (e : exn).
Arguments Returned {A} a.
Arguments Raised {A} e.

(** A computation changes the world and returns or raises; what it did
    before raising stays done. *)
Definition M (A : Type) : Type := world -> outcome A * world.

#[global] Instance M_ret : MRet M := fun A a w => (Returned a, w).

#[global] Instance M_bind : MBind M := fun A B k m w =>
  match m w with
  | (Returned a, w') => k a w'
  | (Raised e, w') => (Raised e, w')
  end.

Definition raise {A : Type} (e : exn) : M A := fun w => (Raised e, w).

Definition log (c : call) (w : world) : world :=
  {| calls := calls w ++ [c]; files := files w |}.

(** ** Names *)

(** The names bound at module level when [main] runs: the imports of lines
    5-41 and the definitions of lines 44-92. *)
Definition module_globals : list string :=
  [ "os"; "logging"; "glob"; "itertools";
    "dataclass"; "field";
    "Any"; "Callable"; "Dict"; "List"; "NewType"; "Tuple"; "Optional";
    "np"; "torch";
    "pad_sequence";
    "make_batch_reader"; "DataLoader"; "UnischemaField"; "Unischema";
    "NdarrayCodec";
    "CONFIG_MAPPING"; "MODEL_WITH_LM_HEAD_MAPPING"; "AutoConfig";
    "AutoModelWithLMHead"; "AutoTokenizer";
    "DataCollatorForLanguageModeling"; "HfArgumentParser";
    "LineByLineTextDataset"; "PreTrainedTokenizer"; "TextDataset";
    "Trainer"; "TrainingArguments"; "set_seed";
    "RecSysTrainer"; "XLNetConfig"; "XLNetLMHeadModel";
    "logger"; "TRAIN_DATA_LEN"; "EVAL_DATA_LEN"; "DataLoaderWithLen";
    "MODEL_CONFIG_CLASSES"; "MODEL_TYPES"; "ModelArguments"; "main" ].

(** The builtins the script reads. *)
Definition builtins : list string :=
  [ "ValueError"; "bool"; "list"; "tuple"; "str"; "sorted"; "open";
    "super"; "__name__" ].

Definition bound (x : string) : bool :=
  existsb (String.eqb x) module_globals || existsb (String.eqb x) builtins.

Definition TRAIN_DATA_LEN : Z := 10000.
Definition EVAL_DATA_LEN : Z := 10000.

(** ** The schemas (lines 146-198) *)

(** data B *)
Definition recsys_schema_small : list UnischemaField :=
  [ mkField "pid_seq_zpd" np_int64 [] None true;
    mkField "cid_seq_zpd" np_int64 [] None true;
    mkField "dtime_seq_zpd" np_float [] None true ].

(** data A *)
Definition recsys_schema_full : list UnischemaField :=
  [ mkField "user_idx" np_int [] None true;
    mkField "sess_seq_len" np_int [] None false;
    mkField "session_start_ts" np_int64 [] None true;
    mkField "user_seq_length_bef_sess" np_int [] None false;
    mkField "user_elapsed_days_bef_sess" np_float [] None true;
    mkField "user_elapsed_days_log_bef_sess_norm" np_double [] None true;
    mkField "sess_pid_seq" np_int64 [None] None true;
    mkField "sess_etime_seq" np_int64 [None] None true;
    mkField "sess_etype_seq" np_int [None] None true;
    mkField "sess_csid_seq" np_int [None] None true;
    mkField "sess_ccid_seq" np_int [None] None true;
    mkField "sess_bid_seq" np_int [None] None true;
    mkField "sess_price_seq" np_float [None] None true;
    mkField "sess_dtime_seq" np_float [None] None true;
    mkField "sess_product_recency_seq" np_float [None] None true;
    mkField "sess_relative_price_to_avg_category_seq" np_float [None] None true;
    mkField "sess_et_hour_sin_seq" np_float [None] None true;
    mkField "sess_et_hour_cos_seq" np_float [None] None true;
    mkField "sess_et_month_sin_seq" np_float [None] None true;
    mkField "sess_et_month_cos_seq" np_float [None] None true;
    mkField "sess_et_dayofweek_sin_seq" np_float [None] None true;
    mkField "sess_et_dayofweek_cos_seq" np_float [None] None true;
    mkField "sess_et_dayofmonth_sin_seq" np_float [None] None true;
    mkField "sess_et_dayofmonth_cos_seq" np_float [None] None true;
    mkField "user_pid_seq_bef_sess" np_int64 [None] None true;
    mkField "user_etime_seq_bef_sess" np_int64 [None] None true;
    mkField "user_etype_seq_bef_sess" np_int [None] None true;
    mkField "user_csid_seq_bef_sess" np_int [None] None true;
    mkField "user_ccid_seq_bef_sess" np_int [None] None true;
    mkField "user_bid_seq_bef_sess" np_int [None] None true;
    mkField "user_price_seq_bef_sess" np_float [None] None true;
    mkField "user_dtime_seq_bef_sess" np_float [None] None true;
    mkField "user_product_recency_seq_bef_sess" np_float [None] None true;
    mkField "user_relative_price_to_avg_category_seq_bef_sess" np_float [None] None true;
    mkField "user_et_hour_sin_seq_bef_sess" np_float [None] None true;
    mkField "user_et_hour_cos_seq_bef_sess" np_float [None] None true;
    mkField "user_et_month_sin_seq_bef_sess" np_float [None] None true;
    mkField "user_et_month_cos_seq_bef_sess" np_float [None] None true;
    mkField "user_et_dayofweek_sin_seq_bef_sess" np_float [None] None true;
    mkField "user_et_dayofweek_cos_seq_bef_sess" np_float [None] None true;
    mkField "user_et_dayofmonth_sin_seq_bef_sess" np_float [None] None true;
    mkField "user_et_dayofmonth_cos_seq_bef_sess" np_float [None] None true ].

(** The schema lists that [main] binds, by the name of the local. *)
Definition schema_descriptors : list (string * list UnischemaField) :=
  [ ("recsys_schema_small", recsys_schema_small);
    ("recsys_schema_full", recsys_schema_full) ].

(** [s.endswith(suffix)] *)
Definition endswith (s suffix : string) : bool :=
  (String.length suffix <=? String.length s)%nat
  && String.eqb
       (substring (String.length s - String.length suffix)
                  (String.length suffix) s)
       suffix.

(** The names of the sequence columns end in [_seq] or [_seq_bef_sess]. *)
Definition is_sequence_name (s : string) : bool :=
  endswith s "_seq" || endswith s "_seq_bef_sess".

(** ** The hard-coded data paths (lines 124-137) *)

Definition d_path : string :=
  "~/dataset/ecommerce_preproc_Oct_01-10_2019.parquet/".

(** data A: the first value of [train_data_path], overwritten at line 133 *)
Definition train_data_path_A : list string :=
  [ d_path +:+ "session_start_date=2019-10-01";
    d_path +:+ "session_start_date=2019-10-02" ].

(** data B: the value of [train_data_path] that [get_files] receives *)
Definition train_data_path : list string :=
  [ "~/dataset/20200617044630-appid-local-1592357472062-5618370f-419b-4421-be76-1ef1bc3df293/" ].

Definition eval_data_path : list string :=
  [ d_path +:+ "session_start_date=2019-10-04" ].

Definition newline : string := String (ascii_of_nat 10) EmptyString.

(** [os.path.join(a, b)] on a POSIX system, for two components. *)
Definition os_path_join (a b : string) : string :=
  if String.prefix "/" b then b
  else if String.eqb a "" || endswith a "/" then a +:+ b
  else a +:+ "/" +:+ b.

(** Python compares strings by code point, left to right. *)
Definition str_le (a b : string) : Prop := String.leb a b = true.

#[global] Instance str_le_dec (a b : string) : Decision (str_le a b).
Proof. unfold str_le. apply _. Defined.

(** [sorted(d.keys())] *)
Definition sorted_keys {V : Type} (d : gmap string V) : list string :=
  merge_sort str_le (map fst (map_to_list d)).

Section Runner.

Variable env : Env.

(** A call into a library: it is made, and then it returns or raises. *)
Definition ext (c : call) : M unit := fun w =>
  if lib_raises env c
  then (Raised (LibraryError c), log c w)
  else (Returned tt, log c w).

(** Reading a name that is not a local of the function: the module's
    globals, then the builtins, else [NameError]. *)
Definition load_global (x : string) : M unit :=
  if bound x then mret tt else raise (NameError x).

Definition load_globals (xs : list string) : M unit :=
  foldr (fun x k => load_global x;; k) (mret tt) xs.

(** [for x in xs: body(x)] *)
Definition for_each {A : Type} (xs : list A) (body : A -> M unit) : M unit :=
  foldr (fun x k => body x;; k) (mret tt) xs.

(** [d.pop(key)]: the value and the dict without the key, or [KeyError]. *)
Definition dict_pop (d : gmap string pyval) (key : string)
  : M (pyval * gmap string pyval) :=
  match d !! key with
  | Some v => mret (v, delete key d)
  | None => raise (KeyError key)
  end.

(** [d[key]] *)
Definition dict_get {V : Type} (d : gmap string V) (key : string) : M V :=
  match d !! key with
  | Some v => mret v
  | None => raise (KeyError key)
  end.

(** *** class DataLoaderWithLen(DataLoader) (lines 52-57) *)

Definition __init__ (args : list pyval) (kwargs : gmap string pyval)
  : M DataLoaderWithLen :=
  '(v, kwargs') ← dict_pop kwargs "len";
  load_globals ["super"; "DataLoaderWithLen"];;
  ext (DataLoader_init args kwargs');;
  mret {| len := v; base := {| init_args := args; init_kwargs := kwargs' |} |}.



(** *** get_files (lines 139-141) *)

Definition get_files (data_paths : list string) : list string :=
  let paths :=
    map (fun path =>
           map (fun p => "file://" +:+ p)
               (glob_glob env (path +:+ "/*.parquet")))
        data_paths in
  concat paths.

(** *** main (lines 92-290)

    The body is cut at the comments of the source into blocks; [main]
    runs them in order.  A block first reads the global names its
    statements mention, in the order Python evaluates them. *)

Definition modify_files (f : gmap string string -> gmap string string)
  : M unit :=
  fun w => (Returned tt, {| calls := calls w; files := f (files w) |}).

(** [open(path, "w")]: the file is created or emptied. *)
Definition open_for_writing (path : string) : M unit :=
  ext (open_w path);;
  modify_files (fun fs => <[path := ""]> fs).

(** [writer.write(text)] *)
Definition write (path text : string) : M unit :=
  ext (writer_write path text);;
  modify_files (fun fs => alter (fun old => old +:+ text) path fs).

(** Lines 94-95. *)
Definition parse : M (ModelArguments * TrainingArguments) :=
  load_globals ["HfArgumentParser"; "ModelArguments"; "TrainingArguments"];;
  ext parse_args_into_dataclasses;;
  mret (parsed_args env).

(** Lines 97-105: the guard on the output directory.  [and] stops at the
    first falsy operand, so [os.listdir] runs only on an existing path. *)
Definition check_output_dir (training_args : TrainingArguments) : M unit :=
  load_globals ["os"];;
  if os_path_exists env (output_dir training_args) then
    load_globals ["os"];;
    entries ← match os_listdir env (output_dir training_args) with
              | Some l => mret l
              | None => raise (OSError (output_dir training_args))
              end;
    match entries with
    | [] => mret tt
    | _ :: _ =>
        if do_train training_args && negb (overwrite_output_dir training_args)
        then
          load_globals ["ValueError"];;
          raise (ValueError
                   ("Output directory (" +:+ output_dir training_args
                    +:+ ") already exists and is not empty. Use --overwrite_output_dir to overcome."))
        else mret tt
    end
  else mret tt.

(** Lines 107-122: logging and the seed. *)
Definition setup_logging (training_args : TrainingArguments) : M unit :=
  load_globals ["logging"; "logging"];;
  ext (logging_basicConfig
         (if (local_rank training_args =? -1)%Z || (local_rank training_args =? 0)%Z
          then INFO else WARN));;
  load_globals ["logger"; "bool"];;
  ext (logger_warning
         "Process rank: %s, device: %s, n_gpu: %s, distributed training: %s, 16-bits training: %s"
         [ PyInt (local_rank training_args);
           PyStr (device training_args);
           PyInt (n_gpu training_args);
           PyBool (negb (local_rank training_args =? -1)%Z);
           PyBool (fp16 training_args) ]);;
  load_globals ["logger"];;
  ext (logger_info "Training/evaluation parameters %s" [PyArgs training_args]);;
  load_globals ["set_seed"];;
  ext (set_seed (seed training_args)).

(** Lines 201-221: the two loaders.  Each reader is made before the
    loader that wraps it. *)
Definition make_loaders (training_args : TrainingArguments)
  : M (DataLoaderWithLen * DataLoaderWithLen) :=
  let train_files := get_files train_data_path in
  let eval_files := get_files eval_data_path in
  load_globals ["DataLoaderWithLen"; "make_batch_reader"];;
  let train_reader :=
    {| dataset_url_or_urls := train_files;
       num_epochs := None;
       schema_fields := recsys_schema_small |} in
  ext (make_batch_reader train_reader);;
  load_globals ["TRAIN_DATA_LEN"];;
  train_loader ←
    __init__ [PyReader train_reader]
      {[ "batch_size" := PyInt (per_device_train_batch_size training_args);
         "len" := PyInt TRAIN_DATA_LEN ]};
  load_globals ["DataLoaderWithLen"; "make_batch_reader"];;
  let eval_reader :=
    {| dataset_url_or_urls := eval_files;
       num_epochs := None;
       schema_fields := recsys_schema_full |} in
  ext (make_batch_reader eval_reader);;
  load_globals ["EVAL_DATA_LEN"];;
  eval_loader ←
    __init__ [PyReader eval_reader]
      {[ "batch_size" := PyInt (per_device_eval_batch_size training_args);
         "len" := PyInt EVAL_DATA_LEN ]};
  mret (train_loader, eval_loader).

(** Lines 223-237. *)
Definition config : XLNetConfig :=
  {| product_vocab_size := 300000;
     category_vocab_size := 1000;
     brand_vocab_size := 500;
     d_model := 1024;
     n_layer := 24;
     n_head := 16;
     d_inner := 4096;
     ff_activation := "gelu";
     untie_r := true;
     attn_type := "bi";
     initializer_range := Dec 2 (-2);
     layer_norm_eps := Dec 1 (-12);
     dropout := Dec 1 (-1) |}.

(** Lines 223-254: configuration, model and trainer. *)
Definition make_trainer (training_args : TrainingArguments)
  (train_loader eval_loader : DataLoaderWithLen) : M RecSysTrainer :=
  load_globals ["XLNetConfig"];;
  ext (XLNetConfig_init config);;
  load_globals ["logger"];;
  ext (logger_info "Training new model from scratch" []);;
  load_globals ["XLNetLMHeadModel"];;
  ext (XLNetLMHeadModel_init config);;
  load_globals ["RecSysTrainer"];;
  let trainer :=
    {| train_loader := train_loader;
       eval_loader := eval_loader;
       model := {| model_config := config |};
       args := training_args |} in
  ext (RecSysTrainer_init trainer);;
  mret trainer.

(** Lines 256-268: training. *)
Definition training (model_args : ModelArguments)
  (training_args : TrainingArguments) : M unit :=
  if do_train training_args then
    model_path ←
      match model_name_or_path model_args with
      | Some p =>
          load_globals ["os"];;
          mret (if os_path_isdir env p then Some p else None)
      | None => mret None
      end;
    ext (trainer_train model_path);;
    ext trainer_save_model;;
    ext trainer_is_world_master;;
    if is_world_master env then
      load_globals ["tokenizer"];;
      ext (tokenizer_save_pretrained (output_dir training_args))
    else mret tt
  else mret tt.

(** Lines 270-290: evaluation; the value is what [main] returns. *)
Definition evaluation (training_args : TrainingArguments)
  : M (gmap string pyfloat) :=
  let results : gmap string pyfloat := ∅ in
  if do_eval training_args then
    load_globals ["logger"];;
    ext (logger_info "*** Evaluate ***" []);;
    ext trainer_evaluate;;
    let eval_output := evaluate_output env in
    load_globals ["math"];;
    eval_loss ← dict_get eval_output "eval_loss";
    let perplexity := libm_exp env eval_loss in
    let result : gmap string pyfloat := {[ "perplexity" := perplexity ]} in
    load_globals ["os"];;
    let output_eval_file :=
      os_path_join (output_dir training_args) "eval_results_lm.txt" in
    ext trainer_is_world_master;;
    (if is_world_master env then
       load_globals ["open"];;
       open_for_writing output_eval_file;;
       load_globals ["logger"];;
       ext (logger_info "***** Eval results *****" []);;
       load_globals ["sorted"];;
       for_each (sorted_keys result) (fun key =>
         load_globals ["logger"; "str"];;
         v ← dict_get result key;
         ext (logger_info "  %s = %s" [PyStr key; PyStr (float_str env v)]);;
         load_globals ["str"];;
         v' ← dict_get result key;
         write output_eval_file
               (key +:+ " = " +:+ float_str env v' +:+ newline))
     else mret tt);;
    mret (result ∪ results)
  else mret results.

Definition main : M (gmap string pyfloat) :=
  '(model_args, training_args) ← parse;
  check_output_dir training_args;;
  setup_logging training_args;;
  load_globals ["glob"; "itertools"; "list"; "UnischemaField"; "np"];;
  '(train_loader, eval_loader) ← make_loaders training_args;
  trainer ← make_trainer training_args train_loader eval_loader;
  training model_args training_args;;
  evaluation training_args.

(** A run of the script: [main] from a fresh process. *)
Definition run : outcome (gmap string pyfloat) * world := main world0.

End Runner.

(** ** A concrete setting: [python example_recsys_runner.py --output_dir ./tmp/ ...] *)

Definition example_training_args (train eval overwrite : bool)
  : TrainingArguments :=
  {| output_dir := "./tmp/";
     overwrite_output_dir := overwrite;
     do_train := train;
     do_eval := eval;
     per_device_train_batch_size := 8;
     per_device_eval_batch_size := 8;
     local_rank := -1;
     seed := 42;
     fp16 := false;
     device := "cpu";
     n_gpu := 0 |}.

Definition example_model_args : ModelArguments :=
  {| model_name_or_path := None;
     model_type := None;
     config_name := None;
     tokenizer_name := None;
     cache_dir := None |}.

(** [entries] is the listing of [./tmp/], [None] when it does not exist;
    one day of the evaluation data holds two parquet files; no library
    call raises. *)
Definition example_env (entries : option (list string))
  (train eval overwrite master : bool) : Env :=
  {| parsed_args := (example_model_args,
                     example_training_args train eval overwrite);
     os_path_exists := fun p => String.eqb p "./tmp/" && bool_decide (is_Some entries);
     os_listdir := fun p => if String.eqb p "./tmp/" then entries else None;
     os_path_isdir := fun p => String.eqb p "./tmp/" && bool_decide (is_Some entries);
     glob_glob := fun pat =>
       if String.eqb pat (d_path +:+ "session_start_date=2019-10-04/*.parquet")
       then [ d_path +:+ "session_start_date=2019-10-04/part-0.parquet";
              d_path +:+ "session_start_date=2019-10-04/part-1.parquet" ]
       else [];
     lib_raises := fun _ => false;
     is_world_master := master;
     evaluate_output := {[ "eval_loss" := Float64 0 ]};
     libm_exp := fun x => x;
     float_str := fun _ => "?" |}.

(** ** What a run is observed by *)

Definition model_args_of (env : Env) : ModelArguments := fst (parsed_args env).
Definition training_args_of (env : Env) : TrainingArguments := snd (parsed_args env).

(** The output directory exists and [os.listdir] finds an entry in it. *)
Definition output_dir_nonempty (env : Env) : bool :=
  os_path_exists env (output_dir (training_args_of env))
  && match os_listdir env (output_dir (training_args_of env)) with
     | Some (_ :: _) => true
     | _ => false
     end.

(** The condition of the [if] at lines 97-102. *)
Definition guard_fires (env : Env) : bool :=
  output_dir_nonempty env
  && (do_train (training_args_of env)
      && negb (overwrite_output_dir (training_args_of env))).

Definition guard_message (env : Env) : string :=
  "Output directory (" +:+ output_dir (training_args_of env)
  +:+ ") already exists and is not empty. Use --overwrite_output_dir to overcome.".

(** No library call of the run raises, and [os.listdir] answers for the
    output directory when it exists. *)
Definition libraries_succeed (env : Env) : Prop :=
  (forall c, lib_raises env c = false)
  /\ (os_path_exists env (output_dir (training_args_of env)) = true ->
      is_Some (os_listdir env (output_dir (training_args_of env)))).

Definition is_train (c : call) : bool :=
  match c with trainer_train _ => true | _ => false end.

Definition is_evaluate (c : call) : bool :=
  match c with trainer_evaluate => true | _ => false end.

(** A reader, loader, configuration, model or trainer is constructed. *)
Definition is_construction (c : call) : bool :=
  match c with
  | make_batch_reader _ | DataLoader_init _ _ | XLNetConfig_init _
  | XLNetLMHeadModel_init _ | RecSysTrainer_init _ => true
  | _ => false
  end.

(** The [model_path] that line 258 computes. *)
Definition model_path_of (env : Env) : option string :=
  match model_name_or_path (model_args_of env) with
  | Some p => if os_path_isdir env p then Some p else None
  | None => None
  end.

Definition train_reader_of (env : Env) : Reader :=
  {| dataset_url_or_urls := get_files env train_data_path;
     num_epochs := None;
     schema_fields := recsys_schema_small |}.

Definition eval_reader_of (env : Env) : Reader :=
  {| dataset_url_or_urls := get_files env eval_data_path;
     num_epochs := None;
     schema_fields := recsys_schema_full |}.

Definition train_loader_of (env : Env) : DataLoaderWithLen :=
  {| len := PyInt TRAIN_DATA_LEN;
     base := {| init_args := [PyReader (train_reader_of env)];
                init_kwargs :=
                  {[ "batch_size" :=
                       PyInt (per_device_train_batch_size (training_args_of env)) ]} |} |}.

Definition eval_loader_of (env : Env) : DataLoaderWithLen :=
  {| len := PyInt EVAL_DATA_LEN;
     base := {| init_args := [PyReader (eval_reader_of env)];
                init_kwargs :=
                  {[ "batch_size" :=
                       PyInt (per_device_eval_batch_size (training_args_of env)) ]} |} |}.

Definition trainer_of (env : Env) : RecSysTrainer :=
  {| train_loader := train_loader_of env;
     eval_loader := eval_loader_of env;
     model := {| model_config := config |};
     args := training_args_of env |}.

(** The calls of lines 94-122, when none raises. *)
Definition setup_calls (env : Env) : list call :=
  let training_args := training_args_of env in
  [ parse_args_into_dataclasses;
    logging_basicConfig
      (if (local_rank training_args =? -1)%Z || (local_rank training_args =? 0)%Z
       then INFO else WARN);
    logger_warning
      "Process rank: %s, device: %s, n_gpu: %s, distributed training: %s, 16-bits training: %s"
      [ PyInt (local_rank training_args);
        PyStr (device training_args);
        PyInt (n_gpu training_args);
        PyBool (negb (local_rank training_args =? -1)%Z);
        PyBool (fp16 training_args) ];
    logger_info "Training/evaluation parameters %s" [PyArgs training_args];
    set_seed (seed training_args) ].

(** The calls of lines 201-254, when none raises. *)
Definition construction_calls (env : Env) : list call :=
  [ make_batch_reader (train_reader_of env);
    DataLoader_init (init_args (base (train_loader_of env)))
                    (init_kwargs (base (train_loader_of env)));
    make_batch_reader (eval_reader_of env);
    DataLoader_init (init_args (base (eval_loader_of env)))
                    (init_kwargs (base (eval_loader_of env)));
    XLNetConfig_init config;
    logger_info "Training new model from scratch" [];
    XLNetLMHeadModel_init config;
    RecSysTrainer_init (trainer_of env) ].

(** The calls of lines 256-268 up to the point where [tokenizer] is read. *)
Definition training_calls (env : Env) : list call :=
  if do_train (training_args_of env)
  then [ trainer_train (model_path_of env);
         trainer_save_model;
         trainer_is_world_master ]
  else [].

(** The calls of lines 270-275 up to the point where [math] is read. *)
Definition evaluation_calls (env : Env) : list call :=
  if do_eval (training_args_of env)
  then [ logger_info "*** Evaluate ***" []; trainer_evaluate ]
  else [].

(** The longest sequence of calls a run can make. *)
Definition intended_calls (env : Env) : list call :=
  setup_calls env ++ construction_calls env
  ++ training_calls env ++ evaluation_calls env.

(** The step of the driver routine that a call belongs to: 1 parse the
    configuration, 2 build the batch readers over the globbed files, 3
    construct the model from its configuration, 4 hand loaders and model
    to the trainer, 5 train and evaluate.  Logging, seeding and the
    trainer's bookkeeping belong to no step. *)
Definition step_of (c : call) : option nat :=
  match c with
  | parse_args_into_dataclasses => Some 1
  | make_batch_reader _ | DataLoader_init _ _ => Some 2
  | XLNetConfig_init _ | XLNetLMHeadModel_init _ => Some 3
  | RecSysTrainer_init _ => Some 4
  | trainer_train _ | trainer_evaluate => Some 5
  | _ => None
  end.

Definition steps_of (cs : list call) : list nat := omap step_of cs.

Fixpoint nondecreasing (ns : list nat) : bool :=
  match ns with
  | a :: (b :: _) as rest => (a <=? b)%nat && nondecreasing rest
  | _ => true
  end.

(** ** What every run satisfies *)

(** The outcome and world of a run, whatever the libraries do. *)
Definition run_post (env : Env) (o : outcome (gmap string pyfloat))
  (w : world) : Prop :=
  files w = ∅
  /\ (exists n, calls w = firstn n (intended_calls env))
  /\ nondecreasing (steps_of (calls w)) = true
  /\ match o with
     | Returned r =>
         r = ∅
         /\ guard_fires env = false
         /\ do_eval (training_args_of env) = false
         /\ do_train (training_args_of env) && is_world_master env = false
         /\ calls w = intended_calls env
     | Raised (ValueError msg) =>
         guard_fires env = true
         /\ msg = guard_message env
         /\ calls w = [parse_args_into_dataclasses]
     | Raised (NameError x) =>
         (x = "tokenizer"
          /\ do_train (training_args_of env) = true
          /\ is_world_master env = true)
         \/ (x = "math" /\ do_eval (training_args_of env) = true)
     | Raised (KeyError _) => False
     | Raised (OSError _) =>
         os_listdir env (output_dir (training_args_of env)) = None
     | Raised (LibraryError c) => lib_raises env c = true
     end.

(** The outcome and world of a run in which no library call raises. *)
Definition expected_run (env : Env) : outcome (gmap string pyfloat) * world :=
  if guard_fires env then
    (Raised (ValueError (guard_message env)),
     {| calls := [parse_args_into_dataclasses]; files := ∅ |})
  else if do_train (training_args_of env) && is_world_master env then
    (Raised (NameError "tokenizer"),
     {| calls := setup_calls env ++ construction_calls env ++ training_calls env;
        files := ∅ |})
  else if do_eval (training_args_of env) then
    (Raised (NameError "math"),
     {| calls := intended_calls env; files := ∅ |})
  else
    (Returned ∅, {| calls := intended_calls env; files := ∅ |}).

(** ** The claims of the specification that the code does not meet, as
    they are worded *)

(** "main raises ValueError whenever the output directory exists and is
    non-empty and the overwrite flag is not set" *)
Definition guard_as_specified : Prop :=
  forall env,
    libraries_succeed env ->
    output_dir_nonempty env = true ->
    overwrite_output_dir (training_args_of env) = false ->
    exists msg, fst (run env) = Raised (ValueError msg).

(** "for every invocation of main with a non-empty existing output
    directory and the overwrite flag unset, main fails before ... the data
    loaders, model, or trainer are constructed" *)
Definition fails_before_training_as_specified : Prop :=
  forall env,
    libraries_succeed env ->
    output_dir_nonempty env = true ->
    overwrite_output_dir (training_args_of env) = false ->
    (exists e, fst (run env) = Raised e)
    /\ existsb is_construction (calls (snd (run env))) = false.

(** ** What a run depends on *)

(** Two environments that [main] cannot tell apart: the same training
    arguments and [model_name_or_path], the same answers of
    [os.path.exists] and [os.listdir] on the output directory, of
    [os.path.isdir] on [model_name_or_path] and of [glob.glob] on the
    patterns of the hard-coded data paths, the same library failures and
    the same [is_world_master].  The other model arguments, the rest of
    the file system, the evaluation output, [exp] and [str] may differ. *)
Definition same_inputs (env1 env2 : Env) : Prop :=
  training_args_of env1 = training_args_of env2
  /\ model_name_or_path (model_args_of env1)
     = model_name_or_path (model_args_of env2)
  /\ os_path_exists env1 (output_dir (training_args_of env1))
     = os_path_exists env2 (output_dir (training_args_of env1))
  /\ os_listdir env1 (output_dir (training_args_of env1))
     = os_listdir env2 (output_dir (training_args_of env1))
  /\ (forall p, model_name_or_path (model_args_of env1) = Some p ->
                os_path_isdir env1 p = os_path_isdir env2 p)
  /\ Forall (fun path => glob_glob env1 (path +:+ "/*.parquet")
                         = glob_glob env2 (path +:+ "/*.parquet"))
            (train_data_path ++ eval_data_path)
  /\ (forall c, lib_raises env1 c = lib_raises env2 c)
  /\ is_world_master env1 = is_world_master env2.

(** [env] with other library failures. *)
Definition with_failures (env : Env) (fails : call -> bool) : Env :=
  {| parsed_args := parsed_args env;
     os_path_exists := os_path_exists env;
     os_listdir := os_listdir env;
     os_path_isdir := os_path_isdir env;
     glob_glob := glob_glob env;
     lib_raises := fails;
     is_world_master := is_world_master env;
     evaluate_output := evaluate_output env;
     libm_exp := libm_exp env;
     float_str := float_str env |}.

(** [--output_dir ./tmp/ --overwrite_output_dir] where [./tmp/] is a
    directory that the process may not read: it exists and [os.listdir]
    raises. *)
Definition example_env_unreadable_dir : Env :=
  {| parsed_args := (example_model_args, example_training_args false false true);
     os_path_exists := fun p => String.eqb p "./tmp/";
     os_listdir := fun _ => None;
     os_path_isdir := fun _ => false;
     glob_glob := fun _ => [];
     lib_raises := fun _ => false;
     is_world_master := true;
     evaluate_output := ∅;
     libm_exp := fun x => x;
     float_str := fun _ => "?" |}.

(** [--model_name_or_path ./ckpt --do_train] on a process that is not the
    world master; [./ckpt] is a directory when [ckpt_is_dir]. *)
Definition example_env_resume (ckpt_is_dir : bool) : Env :=
  {| parsed_args :=
       ({| model_name_or_path := Some "./ckpt";
           model_type := Some "xlnet";
           config_name := None;
           tokenizer_name := None;
           cache_dir := None |},
        example_training_args true false false);
     os_path_exists := fun _ => false;
     os_listdir := fun _ => None;
     os_path_isdir := fun p => String.eqb p "./ckpt" && ckpt_is_dir;
     glob_glob := fun _ => [];
     lib_raises := fun _ => false;
     is_world_master := false;
     evaluate_output := ∅;
     libm_exp := fun x => x;
     float_str := fun _ => "?" |}.

(** [example_env] for [--do_eval], with what [main] does not look at
    changed: the other model arguments, the file system away from the
    output directory and the data paths, and the evaluation output. *)
Definition example_env_variant : Env :=
  let env := example_env None false true false true in
  {| parsed_args :=
       ({| model_name_or_path := None;
           model_type := Some "xlnet";
           config_name := Some "xlnet-base-cased";
           tokenizer_name := Some "xlnet-base-cased";
           cache_dir := Some "./cache" |},
        training_args_of env);
     os_path_exists := fun p => String.eqb p "./cache" || os_path_exists env p;
     os_listdir := fun p => if String.eqb p "./cache" then Some ["blob"]
                            else os_listdir env p;
     os_path_isdir := fun _ => true;
     glob_glob := fun pat =>
       if String.eqb pat (d_path +:+ "session_start_date=2019-10-01/*.parquet")
       then [d_path +:+ "session_start_date=2019-10-01/part-0.parquet"]
       else glob_glob env pat;
     lib_raises := lib_raises env;
     is_world_master := is_world_master env;
     evaluate_output := {[ "eval_loss" := Float64 4611686018427387904 ]};
     libm_exp := fun _ => Float64 0;
     float_str := fun _ => "7.38905609893065" |}.

(** [main] opens or writes a file itself (lines 282 and 286). *)
Definition is_results_write (c : call) : bool :=
  match c with
  | open_w _ | writer_write _ _ => true
  | _ => false
  end.

(** The urls of the two readers, written out: the matches of [glob.glob]
    on the pattern of the data B directory (its path ends in a slash, so
    the pattern has two), and on the pattern of the fourth day of data A,
    each prefixed by [file://]. *)
Definition globbed_train_urls (env : Env) : list string :=
  map (fun p => "file://" +:+ p)
      (glob_glob env
         "~/dataset/20200617044630-appid-local-1592357472062-5618370f-419b-4421-be76-1ef1bc3df293//*.parquet").

Definition globbed_eval_urls (env : Env) : list string :=
  map (fun p => "file://" +:+ p)
      (glob_glob env
         "~/dataset/ecommerce_preproc_Oct_01-10_2019.parquet/session_start_date=2019-10-04/*.parquet").

(** ** Reasoning about computations

    [wp m Q w]: running [m] in [w] ends, returning or raising, in an
    outcome and a world that satisfy [Q]. *)

Definition wp {A : Type} (m : M A) (Q : outcome A -> world -> Prop)
  (w : world) : Prop :=
  Q (fst (m w)) (snd (m w)).

Lemma wp_ret {A : Type} (a : A) (Q : outcome A -> world -> Prop) w :
  Q (Returned a) w -> wp (mret a) Q w.
Proof. intros H. exact H. Qed.

Lemma wp_raise {A : Type} (e : exn) (Q : outcome A -> world -> Prop) w :
  Q (Raised e) w -> wp (raise e) Q w.
Proof. intros H. exact H. Qed.

Lemma wp_bind {A B : Type} (m : M A) (k : A -> M B)
  (Q : outcome B -> world -> Prop) w :
  wp m (fun o w' => match o with
                    | Returned a => wp (k a) Q w'
                    | Raised e => Q (Raised e) w'
                    end) w ->
  wp (m ≫= k) Q w.
Proof.
  unfold wp, mbind, M_bind. destruct (m w) as [[a | e] w']; simpl; auto.
Qed.

Lemma wp_ext env c (Q : outcome unit -> world -> Prop) w :
  (if lib_raises env c
   then Q (Raised (LibraryError c)) (log c w)
   else Q (Returned tt) (log c w)) ->
  wp (ext env c) Q w.
Proof. unfold wp, ext. destruct (lib_raises env c); simpl; auto. Qed.

Lemma load_globals_bound xs w :
  forallb bound xs = true -> load_globals xs w = (Returned tt, w).
Proof.
  induction xs as [| x xs IH]; simpl; [reflexivity |].
  intros [Hx Hxs]%andb_prop.
  unfold mbind, M_bind, load_global. rewrite Hx. simpl. auto.
Qed.

Lemma wp_load_globals xs (Q : outcome unit -> world -> Prop) w :
  forallb bound xs = true -> Q (Returned tt) w -> wp (load_globals xs) Q w.
Proof. intros Hb HQ. unfold wp. rewrite load_globals_bound; auto. Qed.

Lemma wp_load_unbound x (Q : outcome unit -> world -> Prop) w :
  bound x = false -> Q (Raised (NameError x)) w -> wp (load_globals [x]) Q w.
Proof.
  intros Hb HQ. unfold wp, load_globals, load_global. simpl.
  unfold mbind, M_bind. rewrite Hb. exact HQ.
Qed.

Lemma wp_modify_files f (Q : outcome unit -> world -> Prop) w :
  Q (Returned tt) {| calls := calls w; files := f (files w) |} ->
  wp (modify_files f) Q w.
Proof. intros H. exact H. Qed.

Lemma wp_dict_pop d key (Q : outcome (pyval * gmap string pyval) -> world -> Prop) w :
  match d !! key with
  | Some v => Q (Returned (v, delete key d)) w
  | None => Q (Raised (KeyError key)) w
  end ->
  wp (dict_pop d key) Q w.
Proof. unfold wp, dict_pop. destruct (d !! key); auto. Qed.

Lemma wp_dict_get {V : Type} (d : gmap string V) key
  (Q : outcome V -> world -> Prop) w :
  match d !! key with
  | Some v => Q (Returned v) w
  | None => Q (Raised (KeyError key)) w
  end ->
  wp (dict_get d key) Q w.
Proof. unfold wp, dict_get. destruct (d !! key); auto. Qed.

Lemma wp_weaken {A : Type} (m : M A) (Q Q' : outcome A -> world -> Prop) w :
  (forall o w', Q o w' -> Q' o w') -> wp m Q w -> wp m Q' w.
Proof. unfold wp. auto. Qed.

Lemma wp_run {A : Type} (m : M A) (Q : outcome A -> world -> Prop) w :
  wp m Q w -> Q (fst (m w)) (snd (m w)).
Proof. intros H. exact H. Qed.

Lemma kwargs_len (a b : pyval) :
  ({[ "batch_size" := a; "len" := b ]} : gmap string pyval) !! "len" = Some b.
Proof. rewrite lookup_insert_ne by discriminate. apply lookup_singleton_eq. Qed.

Lemma kwargs_without_len (a b : pyval) :
  delete "len" ({[ "batch_size" := a; "len" := b ]} : gmap string pyval)
  = {[ "batch_size" := a ]}.
Proof.
  rewrite delete_insert_ne by discriminate.
  rewrite delete_singleton_eq. reflexivity.
Qed.

(** Symbolic execution: one statement at a time.  [on_ext] decides what
    to do with the test whether a library call raises. *)
Ltac wp_unfold :=
  lazymatch goal with
  | |- wp (main _) _ _ => unfold main
  | |- wp (parse _) _ _ => unfold parse
  | |- wp (check_output_dir _ _) _ _ => unfold check_output_dir
  | |- wp (setup_logging _ _) _ _ => unfold setup_logging
  | |- wp (make_loaders _ _) _ _ => unfold make_loaders
  | |- wp (make_trainer _ _ _ _) _ _ => unfold make_trainer
  | |- wp (training _ _ _) _ _ => unfold training
  | |- wp (evaluation _ _) _ _ => unfold evaluation
  | |- wp (__init__ _ _ _) _ _ => unfold __init__
  | |- wp (open_for_writing _ _) _ _ => unfold open_for_writing
  | |- wp (write _ _ _) _ _ => unfold write
  end.

Ltac wp_case b :=
  lazymatch b with
  | ?x && _ => wp_case x
  | negb ?x => wp_case x
  | _ => first [ match goal with H : b = _ |- _ => rewrite H end
               | destruct b eqn:? ]
  end;
  cbn [andb negb].

Ltac wp_step on_ext :=
  cbv beta iota zeta;
  lazymatch goal with
  | |- wp (mret _) _ _ => apply wp_ret
  | |- wp (raise _) _ _ => apply wp_raise
  | |- wp (_ ≫= _) _ _ => apply wp_bind
  | |- wp (ext _ _) _ _ => apply wp_ext; on_ext
  | |- wp (load_globals _) _ _ =>
      first [ apply wp_load_globals; [vm_compute; reflexivity |]
            | apply wp_load_unbound; [vm_compute; reflexivity |] ]
  | |- wp (modify_files _) _ _ => apply wp_modify_files
  | |- wp (dict_pop _ _) _ _ =>
      apply wp_dict_pop; rewrite ?kwargs_len, ?kwargs_without_len
  | |- wp (dict_get _ _) _ _ => apply wp_dict_get
  | |- wp (if ?b then _ else _) _ _ => wp_case b
  | |- wp (match ?x with _ => _ end) _ _ =>
      first [ match goal with H : x = _ |- _ => rewrite H end
            | destruct x eqn:? ]
  | |- wp _ _ _ => wp_unfold
  end.

(** Any library call may raise. *)
Ltac wp_any :=
  repeat wp_step
    ltac:(idtac;
          lazymatch goal with |- if ?b then _ else _ => destruct b eqn:? end).

(** No library call raises, by the hypothesis [Hq]. *)
Ltac wp_quiet Hq := repeat wp_step ltac:(rewrite Hq).

Ltac expose_args env ma ta :=
  unfold run_post, expected_run, guard_fires, output_dir_nonempty,
    guard_message, intended_calls,
    evaluation_calls, training_calls, setup_calls, construction_calls,
    trainer_of, train_loader_of, eval_loader_of, train_reader_of,
    eval_reader_of, model_path_of, training_args_of, model_args_of in *;
  let Hargs := fresh "Hargs" in
  destruct (parsed_args env) as [ma ta] eqn:Hargs;
  cbn [fst snd] in *.

Ltac take_length :=
  lazymatch goal with
  | |- exists n, calls ?w = _ => exists (List.length (calls w)); reflexivity
  end.

(** ** Every run *)

Lemma run_satisfies_post env : run_post env (fst (run env)) (snd (run env)).
Proof.
  unfold run. apply (wp_run (main env) (run_post env)).
  expose_args env ma ta.
  wp_any.
  all: cbv beta iota zeta; cbn [andb negb];
    repeat lazymatch goal with |- _ /\ _ => split end;
    try reflexivity; try take_length;
    try (left; repeat split; reflexivity);
    try (right; repeat split; reflexivity).
Qed.

Lemma run_expected env : libraries_succeed env -> run env = expected_run env.
Proof.
  intros [Hq Hls].
  enough (wp (main env) (fun o w => (o, w) = expected_run env) world0) as H.
  { unfold wp in H. rewrite <- H. unfold run.
    destruct (main env world0); reflexivity. }
  expose_args env ma ta.
  wp_quiet Hq.
  all: cbv beta iota zeta; cbn [andb negb]; try reflexivity.
  exfalso. destruct Hls as [x Hx]; [reflexivity | discriminate Hx].
Qed.

(** When the guard fires, the run ends there. *)
Lemma run_guard_fires env :
  guard_fires env = true ->
  run env
  = (if lib_raises env parse_args_into_dataclasses
     then Raised (LibraryError parse_args_into_dataclasses)
     else Raised (ValueError (guard_message env)),
     {| calls := [parse_args_into_dataclasses]; files := ∅ |}).
Proof.
  intros Hg.
  enough (wp (main env)
            (fun o w =>
               (o, w)
               = (if lib_raises env parse_args_into_dataclasses
                  then Raised (LibraryError parse_args_into_dataclasses)
                  else Raised (ValueError (guard_message env)),
                  {| calls := [parse_args_into_dataclasses]; files := ∅ |}))
            world0) as H.
  { unfold wp in H. rewrite <- H. unfold run.
    destruct (main env world0); reflexivity. }
  expose_args env ma ta.
  apply andb_prop in Hg as [Hd Hg]. apply andb_prop in Hd as [Hex Hls].
  apply andb_prop in Hg as [Htr Hov]. apply negb_true_iff in Hov.
  destruct (os_listdir env (output_dir ta)) as [[| e es] |] eqn:Hl;
    try discriminate Hls.
  wp_any.
  all: reflexivity.
Qed.

Lemma example_libraries_succeed entries train eval overwrite master :
  libraries_succeed (example_env entries train eval overwrite master).
Proof.
  split; [intros c; reflexivity |].
  unfold example_env, training_args_of; cbn.
  destruct entries; cbn; [eauto | discriminate].
Qed.

Lemma In_firstn {A : Type} (x : A) n (l : list A) :
  In x (firstn n l) -> In x l.
Proof.
  revert l. induction n as [| n IH]; intros [| y l]; simpl; try tauto.
  intros [H | H]; auto.
Qed.


(** ** The guard on the output directory *)

(** C1, as worded, does not hold: with [./tmp/] holding a file, no
    overwrite flag and no [--do_train], the run returns normally. *)
Lemma guard_needs_do_train : ~ guard_as_specified.
Proof.
  intros H.
  destruct (H (example_env (Some ["checkpoint-500"]) false false false true))
    as [msg Hmsg].
  - apply example_libraries_succeed.
  - reflexivity.
  - reflexivity.
  - vm_compute in Hmsg. discriminate Hmsg.
Qed.

(** C1 (amended): when argument parsing succeeds, [main] raises a
    [ValueError] exactly when the output directory exists, is non-empty,
    [do_train] is set and the overwrite flag is not; the message is the
    one of line 104.  So no [ValueError] is raised when the overwrite flag
    is set, when the directory is absent or empty, or when [do_train] is
    unset. *)
Theorem main_raises_ValueError_iff env msg :
  lib_raises env parse_args_into_dataclasses = false ->
  fst (run env) = Raised (ValueError msg)
  <-> guard_fires env = true /\ msg = guard_message env.
Proof.
  intros Hp. split.
  - intros Hrun.
    destruct (run_satisfies_post env) as (_ & _ & _ & Hpost).
    rewrite Hrun in Hpost. tauto.
  - intros [Hg ->]. rewrite (run_guard_fires env Hg), Hp. reflexivity.
Qed.

Lemma main_raises_ValueError_iff_witness :
  fst (run (example_env (Some ["checkpoint-500"]) true true false true))
  = Raised (ValueError
      "Output directory (./tmp/) already exists and is not empty. Use --overwrite_output_dir to overcome.").
Proof.
  apply (main_raises_ValueError_iff
           (example_env (Some ["checkpoint-500"]) true true false true)).
  - reflexivity.
  - split; reflexivity.
Defined.

(** C2, as worded, does not hold: with [./tmp/] holding a file, no
    overwrite flag and only [--do_eval], the readers, loaders, model and
    trainer are all constructed. *)
Lemma fails_before_training_needs_do_train :
  ~ fails_before_training_as_specified.
Proof.
  intros H.
  destruct (H (example_env (Some ["eval_results_lm.txt"]) false true false false))
    as [_ Hc].
  - apply example_libraries_succeed.
  - reflexivity.
  - reflexivity.
  - vm_compute in Hc. discriminate Hc.
Qed.

(** C2 (amended): when the output directory exists and is non-empty,
    [do_train] is set and the overwrite flag is not, the run ends in an
    exception right after argument parsing, the [ValueError] of the guard
    when parsing succeeded: nothing is constructed, [trainer.train] is
    not called and no file is written. *)
Theorem main_fails_before_training env :
  guard_fires env = true ->
  (exists e,
      run env = (Raised e, {| calls := [parse_args_into_dataclasses]; files := ∅ |})
      /\ (lib_raises env parse_args_into_dataclasses = false ->
          e = ValueError (guard_message env)))
  /\ existsb is_construction (calls (snd (run env))) = false
  /\ existsb is_train (calls (snd (run env))) = false
  /\ files (snd (run env)) = ∅.
Proof.
  intros Hg. rewrite (run_guard_fires env Hg).
  split; [| repeat split].
  destruct (lib_raises env parse_args_into_dataclasses);
    eexists; (split; [reflexivity | intros H; first [discriminate H | reflexivity]]).
Qed.

Lemma main_fails_before_training_witness :
  (exists e,
      run (example_env (Some ["checkpoint-500"]) true false false false)
      = (Raised e, {| calls := [parse_args_into_dataclasses]; files := ∅ |})
      /\ (false = false ->
          e = ValueError
                "Output directory (./tmp/) already exists and is not empty. Use --overwrite_output_dir to overcome."))
  /\ existsb is_construction
       (calls (snd (run (example_env (Some ["checkpoint-500"]) true false false false))))
     = false
  /\ existsb is_train
       (calls (snd (run (example_env (Some ["checkpoint-500"]) true false false false))))
     = false
  /\ files (snd (run (example_env (Some ["checkpoint-500"]) true false false false))) = ∅.
Proof.
  apply (main_fails_before_training
           (example_env (Some ["checkpoint-500"]) true false false false)).
  reflexivity.
Defined.

(** ** Evaluation *)

(** C3: the code does not do what the claim says.  With [--do_eval]
    alone, [trainer.evaluate()] is called and then line 277 reads the
    name [math], which the module never imports: the run ends in a
    [NameError] and no file is written. *)
Theorem main_do_eval_raises_NameError_math :
  let env := example_env None false true false true in
  do_eval (training_args_of env) = true
  /\ bound "math" = false
  /\ fst (run env) = Raised (NameError "math")
  /\ existsb is_evaluate (calls (snd (run env))) = true
  /\ files (snd (run env)) = ∅.
Proof. vm_compute. repeat split. Qed.

Lemma existsb_firstn_false {A : Type} (f : A -> bool) n (l : list A) :
  existsb f l = false -> existsb f (firstn n l) = false.
Proof.
  revert l. induction n as [| n IH]; intros [| x l]; simpl; auto.
  intros [Hx Hl]%orb_false_elim. rewrite Hx. simpl. auto.
Qed.

(** Whatever the environment, a run with [do_eval] set does not return,
    and no run reaches the [open] of line 282: [main] makes no [open]
    and no [write] call, so it never creates or writes the results file
    itself.  What the library calls write ([trainer.save_model], say) is
    theirs and is not tracked. *)
Lemma main_do_eval_never_returns env :
  (do_eval (training_args_of env) = true ->
   forall results, fst (run env) <> Returned results)
  /\ existsb is_results_write (calls (snd (run env))) = false
  /\ files (snd (run env)) = ∅.
Proof.
  destruct (run_satisfies_post env) as (Hfiles & [k Hk] & _ & Hpost).
  split; [| split; [| exact Hfiles]].
  - intros He results Hrun. rewrite Hrun in Hpost.
    destruct Hpost as (_ & _ & He' & _). congruence.
  - rewrite Hk. apply existsb_firstn_false.
    unfold intended_calls, training_calls, evaluation_calls.
    destruct (do_train (training_args_of env)),
      (do_eval (training_args_of env)); reflexivity.
Qed.

(** ** class DataLoaderWithLen *)

Lemma init_with_len env args kwargs v w :
  kwargs !! "len" = Some v ->
  __init__ env args kwargs w
  = (if lib_raises env (DataLoader_init args (delete "len" kwargs))
     then Raised (LibraryError (DataLoader_init args (delete "len" kwargs)))
     else Returned {| len := v;
                      base := {| init_args := args;
                                 init_kwargs := delete "len" kwargs |} |},
     log (DataLoader_init args (delete "len" kwargs)) w).
Proof.
  intros Hlen.
  enough (wp (__init__ env args kwargs)
            (fun o w' =>
               (o, w')
               = (if lib_raises env (DataLoader_init args (delete "len" kwargs))
                  then Raised (LibraryError (DataLoader_init args (delete "len" kwargs)))
                  else Returned {| len := v;
                                   base := {| init_args := args;
                                              init_kwargs := delete "len" kwargs |} |},
                  log (DataLoader_init args (delete "len" kwargs)) w)) w) as H.
  { unfold wp in H. rewrite <- H.
    destruct (__init__ env args kwargs w); reflexivity. }
  unfold __init__. apply wp_bind, wp_dict_pop. rewrite Hlen.
  wp_any; reflexivity.
Qed.




(** The trainer of the witness above is in fact constructed. *)
Example example_trainer_constructed :
  In (RecSysTrainer_init (trainer_of (example_env None false false false true)))
     (calls (snd (run (example_env None false false false true)))).
Proof. vm_compute. tauto. Qed.

(** C10: without the keyword [len], [__init__] raises [KeyError] and
    leaves the world as it was, so the parent's [__init__] has not run;
    with it, the parent's [__init__] is the one call made, and it
    receives the keyword arguments without the key [len] and otherwise
    unchanged. *)
Theorem init_pops_len env args kwargs w :
  (kwargs !! "len" = None ->
   __init__ env args kwargs w = (Raised (KeyError "len"), w))
  /\ (forall v, kwargs !! "len" = Some v ->
      calls (snd (__init__ env args kwargs w))
      = calls w ++ [DataLoader_init args (delete "len" kwargs)]
      /\ delete "len" kwargs !! "len" = None
      /\ forall key, key <> "len" -> delete "len" kwargs !! key = kwargs !! key).
Proof.
  split.
  - intros Hnone. unfold __init__, mbind, M_bind, dict_pop.
    rewrite Hnone. reflexivity.
  - intros v Hlen. rewrite (init_with_len env args kwargs v w Hlen).
    split; [reflexivity |]. split.
    + apply lookup_delete_eq.
    + intros key Hkey. apply lookup_delete_ne. congruence.
Qed.

Lemma init_pops_len_witness :
  __init__ (example_env None false false false true)
    [PyStr "reader"] {[ "batch_size" := PyInt 4 ]} world0
  = (Raised (KeyError "len"), world0).
Proof.
  apply (init_pops_len (example_env None false false false true)
           [PyStr "reader"] {[ "batch_size" := PyInt 4 ]} world0).
  reflexivity.
Defined.

(** ** get_files *)

Lemma get_files_cons env path data_paths :
  get_files env (path :: data_paths)
  = map (String.append "file://") (glob_glob env (path +:+ "/*.parquet"))
    ++ get_files env data_paths.
Proof. reflexivity. Qed.

Lemma Forall_prefixed (l : list string) :
  Forall (fun f => String.prefix "file://" f = true)
         (map (String.append "file://") l).
Proof.
  induction l as [| p ps IH]; simpl; constructor; try assumption.
  destruct p; reflexivity.
Qed.

(** C5: [get_files] of one directory is the matches of
    [<path>/*.parquet], each prefixed by [file://], in the order [glob]
    gives them; of a list of directories it is the concatenation of these
    in the order of the list; it is empty exactly when no directory has a
    match. *)
Theorem get_files_concatenates env :
  get_files env [] = []
  /\ (forall path,
        get_files env [path]
        = map (fun p => "file://" +:+ p) (glob_glob env (path +:+ "/*.parquet")))
  /\ (forall paths1 paths2,
        get_files env (paths1 ++ paths2)
        = get_files env paths1 ++ get_files env paths2)
  /\ (forall data_paths,
        Forall (fun f => String.prefix "file://" f = true)
               (get_files env data_paths))
  /\ (forall data_paths,
        List.length (get_files env data_paths)
        = list_sum (map (fun path =>
                           List.length (glob_glob env (path +:+ "/*.parquet")))
                        data_paths))
  /\ (forall data_paths,
        get_files env data_paths = []
        <-> Forall (fun path => glob_glob env (path +:+ "/*.parquet") = [])
                   data_paths).
Proof.
  split; [reflexivity |].
  split; [intros path; rewrite get_files_cons; apply app_nil_r |].
  split.
  { intros paths1 paths2. unfold get_files.
    rewrite map_app. apply concat_app. }
  split.
  { induction data_paths as [| path data_paths IH].
    - constructor.
    - rewrite get_files_cons. apply Forall_app. split; [| exact IH].
      apply Forall_prefixed. }
  split.
  { induction data_paths as [| path data_paths IH]; [reflexivity |].
    rewrite get_files_cons, length_app, length_map. simpl. lia. }
  induction data_paths as [| path data_paths IH].
  - split; [constructor | reflexivity].
  - rewrite get_files_cons. split.
    + intros [H1 H2]%app_eq_nil. constructor.
      * destruct (glob_glob env (path +:+ "/*.parquet")); [reflexivity | discriminate H1].
      * apply IH, H2.
    + intros H. inversion H as [| ? ? Hhd Htl]; subst.
      rewrite Hhd. simpl. apply IH, Htl.
Qed.

(** On the example file system, the evaluation day has two files. *)
Example get_files_example :
  get_files (example_env None false false false true)
    (train_data_path ++ eval_data_path)
  = [ "file://~/dataset/ecommerce_preproc_Oct_01-10_2019.parquet/session_start_date=2019-10-04/part-0.parquet";
      "file://~/dataset/ecommerce_preproc_Oct_01-10_2019.parquet/session_start_date=2019-10-04/part-1.parquet" ].
Proof. reflexivity. Qed.

(** ** The schemas *)

(** C7: [main] binds two schema lists; the small one has three fields,
    all scalar; in the full one a field has shape [(None,)] when its name
    ends in [_seq] or [_seq_bef_sess] and shape [()] otherwise, and the
    fields declared non-nullable are exactly [sess_seq_len] and
    [user_seq_length_bef_sess]. *)
Theorem schemas_as_declared :
  map fst schema_descriptors = ["recsys_schema_small"; "recsys_schema_full"]
  /\ map snd schema_descriptors = [recsys_schema_small; recsys_schema_full]
  /\ List.length recsys_schema_small = 3%nat
  /\ Forall (fun f => shape f = scalar_shape) recsys_schema_small
  /\ Forall (fun f =>
               shape f = if is_sequence_name (name f)
                         then varlen_shape else scalar_shape)
            recsys_schema_full
  /\ map name (filter (fun f => negb (nullable f)) recsys_schema_full)
     = ["sess_seq_len"; "user_seq_length_bef_sess"]
  /\ Forall (fun f =>
               nullable f = false
               <-> (name f = "sess_seq_len"
                    \/ name f = "user_seq_length_bef_sess"))
            recsys_schema_full.
Proof.
  split; [reflexivity |]. split; [reflexivity |]. split; [reflexivity |].
  split; [repeat constructor |].
  split; [repeat (constructor; [vm_compute; reflexivity |]); constructor |].
  split; [reflexivity |].
  repeat (constructor;
          [cbn [name nullable]; split;
           [intros H; first [discriminate H | tauto]
           | intros [H | H]; first [discriminate H | reflexivity]] |]).
  constructor.
Qed.

(** ** The order of the steps, training and evaluation *)

(** C6: the code does not do what the claim says.  Run as the module's
    docstring says, with [--do_train --do_eval], on the world master and
    with every library call succeeding, [main] trains, saves the model
    and then reads the undefined name [tokenizer] at line 268: it never
    reaches [trainer.evaluate()] although [do_eval] is set. *)
Theorem main_do_train_do_eval_skips_evaluate :
  let env := example_env None true true false true in
  do_train (training_args_of env) = true
  /\ do_eval (training_args_of env) = true
  /\ is_world_master env = true
  /\ fst (run env) = Raised (NameError "tokenizer")
  /\ existsb is_train (calls (snd (run env))) = true
  /\ existsb is_evaluate (calls (snd (run env))) = false.
Proof. vm_compute. repeat split. Qed.

(** Whatever the libraries do, the calls of a run are an initial part of
    one fixed sequence, in which the five steps come in order. *)
Lemma main_steps_in_order env :
  (exists n, calls (snd (run env)) = firstn n (intended_calls env))
  /\ nondecreasing (steps_of (calls (snd (run env)))) = true.
Proof.
  destruct (run_satisfies_post env) as (_ & Hn & Hord & _). auto.
Qed.

(** When the libraries succeed and the guard lets the run pass,
    [trainer.train] is called exactly when [do_train] is set, and
    [trainer.evaluate] exactly when [do_eval] is set and the run did not
    stop at [tokenizer]. *)
Lemma main_train_and_evaluate_calls env :
  libraries_succeed env ->
  guard_fires env = false ->
  existsb is_train (calls (snd (run env))) = do_train (training_args_of env)
  /\ existsb is_evaluate (calls (snd (run env)))
     = do_eval (training_args_of env)
       && negb (do_train (training_args_of env) && is_world_master env).
Proof.
  intros Hlib Hg. rewrite (run_expected env Hlib).
  unfold expected_run, intended_calls, training_calls, evaluation_calls.
  rewrite Hg.
  destruct (do_train (training_args_of env)), (is_world_master env),
    (do_eval (training_args_of env)); split; reflexivity.
Qed.

Lemma main_train_and_evaluate_calls_witness :
  existsb is_evaluate
    (calls (snd (run (example_env (Some []) true true false false))))
  = true.
Proof.
  apply (main_train_and_evaluate_calls
           (example_env (Some []) true true false false)).
  - split; [intros c; reflexivity | intros _; vm_compute; eauto].
  - reflexivity.
Defined.

(** C8: with [do_train] set on the world master, [main] never returns;
    the name [tokenizer] is bound nowhere; and when the guard lets the
    run pass and the library calls succeed, the run ends in
    [NameError: tokenizer] right after [trainer.train],
    [trainer.save_model] and [trainer.is_world_master], with nothing
    saved for a tokenizer and no file written. *)
Theorem main_do_train_world_master_NameError env :
  do_train (training_args_of env) = true ->
  is_world_master env = true ->
  (forall results, fst (run env) <> Returned results)
  /\ bound "tokenizer" = false
  /\ (libraries_succeed env ->
      guard_fires env = false ->
      run env
      = (Raised (NameError "tokenizer"),
         {| calls := setup_calls env ++ construction_calls env
                     ++ [ trainer_train (model_path_of env);
                          trainer_save_model;
                          trainer_is_world_master ];
            files := ∅ |})).
Proof.
  intros Ht Hm. split; [| split; [reflexivity |]].
  - intros results Hrun.
    destruct (run_satisfies_post env) as (_ & _ & _ & Hpost).
    rewrite Hrun, Ht, Hm in Hpost.
    destruct Hpost as (_ & _ & _ & Hfalse & _). discriminate Hfalse.
  - intros Hlib Hg. rewrite (run_expected env Hlib).
    unfold expected_run, training_calls. rewrite Hg, Ht, Hm. reflexivity.
Qed.

Lemma main_do_train_world_master_NameError_witness :
  fst (run (example_env (Some []) true false true true))
  = Raised (NameError "tokenizer").
Proof.
  destruct (main_do_train_world_master_NameError
              (example_env (Some []) true false true true)
              eq_refl eq_refl) as (_ & _ & Hrun).
  rewrite Hrun; [reflexivity | | reflexivity].
  split; [intros c; reflexivity | intros _; vm_compute; eauto].
Defined.

Lemma readers_are_globbed env :
  train_reader_of env
  = {| dataset_url_or_urls := globbed_train_urls env;
       num_epochs := None;
       schema_fields := recsys_schema_small |}
  /\ eval_reader_of env
     = {| dataset_url_or_urls := globbed_eval_urls env;
          num_epochs := None;
          schema_fields := recsys_schema_full |}.
Proof.
  unfold train_reader_of, eval_reader_of, globbed_train_urls,
    globbed_eval_urls, train_data_path, eval_data_path.
  rewrite !get_files_cons.
  change (get_files env []) with (@nil string).
  rewrite !app_nil_r. split; reflexivity.
Qed.

(** C9: when the library calls succeed and the guard lets the run pass,
    the run makes the calls that construct both readers, both loaders,
    the configuration, the model and the trainer, whatever [do_train] and
    [do_eval] are; the train reader is made over the [file://] urls of
    what [glob.glob] matches for [*.parquet] under the hard-coded data B
    directory and the eval reader over those of the hard-coded day of
    data A; with both flags unset the run makes no other call after the
    constructions, so it neither trains nor evaluates, writes no file and
    returns the empty dict. *)
Theorem main_constructs_unconditionally env :
  libraries_succeed env ->
  (guard_fires env = false ->
   exists rest,
     calls (snd (run env))
     = setup_calls env ++ construction_calls env ++ rest)
  /\ (do_train (training_args_of env) = false ->
      do_eval (training_args_of env) = false ->
      run env
      = (Returned ∅,
         {| calls := setup_calls env ++ construction_calls env; files := ∅ |})
      /\ existsb is_train (calls (snd (run env))) = false
      /\ existsb is_evaluate (calls (snd (run env))) = false)
  /\ (train_reader_of env
      = {| dataset_url_or_urls := globbed_train_urls env;
           num_epochs := None;
           schema_fields := recsys_schema_small |}
      /\ eval_reader_of env
         = {| dataset_url_or_urls := globbed_eval_urls env;
              num_epochs := None;
              schema_fields := recsys_schema_full |})
  /\ (guard_fires env = false ->
      exists before between after,
        calls (snd (run env))
        = before
          ++ make_batch_reader
               {| dataset_url_or_urls := globbed_train_urls env;
                  num_epochs := None;
                  schema_fields := recsys_schema_small |}
          :: between
          ++ make_batch_reader
               {| dataset_url_or_urls := globbed_eval_urls env;
                  num_epochs := None;
                  schema_fields := recsys_schema_full |}
          :: after).
Proof.
  intros Hlib. rewrite (run_expected env Hlib).
  assert (guard_fires env = false ->
          exists rest,
            calls (snd (expected_run env))
            = setup_calls env ++ construction_calls env ++ rest) as Hcalls.
  { intros Hg. unfold expected_run, intended_calls. rewrite Hg.
    destruct (do_train (training_args_of env) && is_world_master env);
      [| destruct (do_eval (training_args_of env))];
      eexists; reflexivity. }
  split; [exact Hcalls |]. split; [| split; [apply readers_are_globbed |]].
  - intros Ht He.
    unfold expected_run, guard_fires, intended_calls, training_calls,
      evaluation_calls.
    rewrite Ht, He, andb_false_r. cbn [andb app].
    rewrite !app_nil_r. repeat split.
  - intros Hg. destruct (Hcalls Hg) as [rest ->].
    destruct (readers_are_globbed env) as [<- <-].
    unfold construction_calls.
    exists (setup_calls env),
      [ DataLoader_init (init_args (base (train_loader_of env)))
                        (init_kwargs (base (train_loader_of env))) ],
      ([ DataLoader_init (init_args (base (eval_loader_of env)))
                         (init_kwargs (base (eval_loader_of env)));
         XLNetConfig_init config;
         logger_info "Training new model from scratch" [];
         XLNetLMHeadModel_init config;
         RecSysTrainer_init (trainer_of env) ] ++ rest).
    reflexivity.
Qed.

Lemma main_constructs_unconditionally_witness :
  run (example_env (Some ["checkpoint-500"]) false false false true)
  = (Returned ∅,
     {| calls := setup_calls (example_env (Some ["checkpoint-500"]) false false false true)
                 ++ construction_calls (example_env (Some ["checkpoint-500"]) false false false true);
        files := ∅ |})
  /\ dataset_url_or_urls
       (eval_reader_of (example_env (Some ["checkpoint-500"]) false false false true))
     = [ "file://~/dataset/ecommerce_preproc_Oct_01-10_2019.parquet/session_start_date=2019-10-04/part-0.parquet";
         "file://~/dataset/ecommerce_preproc_Oct_01-10_2019.parquet/session_start_date=2019-10-04/part-1.parquet" ].
Proof.
  destruct (main_constructs_unconditionally
              (example_env (Some ["checkpoint-500"]) false false false true))
    as (_ & Hrun & [_ Heval] & _).
  - split; [intros c; reflexivity | intros _; vm_compute; eauto].
  - split.
    + apply Hrun; reflexivity.
    + rewrite Heval. reflexivity.
Defined.

(** ** How a run can end *)

(** When the library calls succeed, [main] completes normally exactly when
    the guard does not fire, [do_eval] is unset and the run is not a
    training run on the world master; it then returns the empty dict. *)
Theorem main_completes_iff env :
  libraries_succeed env ->
  ((exists results, fst (run env) = Returned results)
   <-> guard_fires env = false
       /\ do_eval (training_args_of env) = false
       /\ do_train (training_args_of env) && is_world_master env = false)
  /\ (forall results, fst (run env) = Returned results -> results = ∅).
Proof.
  intros Hlib. rewrite (run_expected env Hlib). unfold expected_run.
  destruct (guard_fires env),
    (do_train (training_args_of env) && is_world_master env),
    (do_eval (training_args_of env)); cbn [fst]; split;
    try (split; [intros [r Hr]; discriminate Hr
                | intros (H1 & H2 & H3); discriminate]);
    try (intros r Hr; first [discriminate Hr | congruence]).
  split; [intros _; repeat split | intros _; eexists; reflexivity].
Qed.

Lemma main_completes_iff_witness :
  exists results,
    fst (run (example_env (Some ["checkpoint-500"]) true false true false))
    = Returned results.
Proof.
  apply (main_completes_iff
           (example_env (Some ["checkpoint-500"]) true false true false)).
  - split; [intros c; reflexivity | intros _; vm_compute; eauto].
  - repeat split.
Defined.

(** Whatever the libraries do, an exception that leaves [main] is the
    [ValueError] of the guard, a [NameError] for [tokenizer] (training on
    the world master) or for [math] (evaluation), the failure of
    [os.listdir] on the output directory, or the exception of a library
    call that raised; it is never a [KeyError]. *)
Theorem main_exceptions_classified env e :
  fst (run env) = Raised e ->
  match e with
  | ValueError msg => guard_fires env = true /\ msg = guard_message env
  | NameError x =>
      (x = "tokenizer"
       /\ do_train (training_args_of env) = true
       /\ is_world_master env = true)
      \/ (x = "math" /\ do_eval (training_args_of env) = true)
  | KeyError _ => False
  | OSError path =>
      path = output_dir (training_args_of env)
      /\ os_path_exists env path = true
      /\ os_listdir env path = None
  | LibraryError c =>
      lib_raises env c = true /\ last (calls (snd (run env))) = Some c
  end.
Proof.
  intros Hrun.
  pose proof (wp_run (main env)
    (fun o w =>
       match o with
       | Returned _ => True
       | Raised (ValueError msg) =>
           guard_fires env = true /\ msg = guard_message env
       | Raised (NameError x) =>
           (x = "tokenizer"
            /\ do_train (training_args_of env) = true
            /\ is_world_master env = true)
           \/ (x = "math" /\ do_eval (training_args_of env) = true)
       | Raised (KeyError _) => False
       | Raised (OSError path) =>
           path = output_dir (training_args_of env)
           /\ os_path_exists env path = true
           /\ os_listdir env path = None
       | Raised (LibraryError c) =>
           lib_raises env c = true /\ last (calls w) = Some c
       end) world0) as H.
  unfold run in *. rewrite Hrun in H. apply H. clear H Hrun e.
  expose_args env ma ta.
  wp_any.
  all: cbv beta iota zeta; cbn [andb negb];
    repeat lazymatch goal with |- _ /\ _ => split end;
    try reflexivity; try assumption;
    try (left; repeat split; reflexivity);
    try (right; repeat split; reflexivity).
Qed.

Lemma main_exceptions_classified_witness :
  lib_raises
    (with_failures (example_env (Some []) true false true true) is_train)
    (trainer_train None) = true
  /\ last (calls (snd (run (with_failures
                              (example_env (Some []) true false true true)
                              is_train))))
     = Some (trainer_train None).
Proof.
  apply (main_exceptions_classified
           (with_failures (example_env (Some []) true false true true) is_train)
           (LibraryError (trainer_train None))).
  vm_compute. reflexivity.
Defined.

(** [os.listdir] runs on an existing output path before [do_train] and
    the overwrite flag are looked at: when it raises (the directory is
    not readable, say), the run ends there whatever the flags are. *)
Theorem main_unlistable_output_dir env :
  lib_raises env parse_args_into_dataclasses = false ->
  os_path_exists env (output_dir (training_args_of env)) = true ->
  os_listdir env (output_dir (training_args_of env)) = None ->
  run env
  = (Raised (OSError (output_dir (training_args_of env))),
     {| calls := [parse_args_into_dataclasses]; files := ∅ |}).
Proof.
  intros Hp Hex Hl.
  enough (wp (main env)
            (fun o w =>
               (o, w)
               = (Raised (OSError (output_dir (training_args_of env))),
                  {| calls := [parse_args_into_dataclasses]; files := ∅ |}))
            world0) as H.
  { unfold wp in H. rewrite <- H. unfold run.
    destruct (main env world0); reflexivity. }
  expose_args env ma ta.
  wp_quiet Hp.
  reflexivity.
Qed.

Lemma main_unlistable_output_dir_witness :
  run example_env_unreadable_dir
  = (Raised (OSError "./tmp/"),
     {| calls := [parse_args_into_dataclasses]; files := ∅ |}).
Proof.
  apply (main_unlistable_output_dir example_env_unreadable_dir);
    reflexivity.
Defined.

(** ** Training *)

Lemma train_in_intended env mp :
  In (trainer_train mp) (intended_calls env) ->
  do_train (training_args_of env) = true /\ mp = model_path_of env.
Proof.
  unfold intended_calls, setup_calls, construction_calls, training_calls,
    evaluation_calls.
  destruct (do_train (training_args_of env)), (do_eval (training_args_of env));
    simpl; intros H;
    repeat (destruct H as [H | H];
            [first [discriminate H | split; [reflexivity | congruence]] |]);
    destruct H.
Qed.

(** Whatever the libraries do, [trainer.train] is only called with
    [do_train] set, and its [model_path] is [model_name_or_path] when that
    names an existing directory and [None] in every other case (no
    [model_name_or_path], or one that is not a directory). *)
Theorem main_train_model_path env mp :
  In (trainer_train mp) (calls (snd (run env))) ->
  do_train (training_args_of env) = true
  /\ match mp with
     | Some p =>
         model_name_or_path (model_args_of env) = Some p
         /\ os_path_isdir env p = true
     | None =>
         forall p, model_name_or_path (model_args_of env) = Some p ->
                   os_path_isdir env p = false
     end.
Proof.
  intros Hin.
  destruct (run_satisfies_post env) as (_ & [k Hk] & _).
  rewrite Hk in Hin. apply In_firstn, train_in_intended in Hin.
  destruct Hin as [Ht ->]. split; [exact Ht |].
  unfold model_path_of.
  destruct (model_name_or_path (model_args_of env)) as [p |];
    [destruct (os_path_isdir env p) eqn:Hd |].
  - split; [reflexivity | exact Hd].
  - intros q [= <-]. exact Hd.
  - intros q Hq. discriminate Hq.
Qed.

Lemma main_train_model_path_witness :
  do_train (training_args_of (example_env_resume true)) = true
  /\ (model_name_or_path (model_args_of (example_env_resume true)) = Some "./ckpt"
      /\ os_path_isdir (example_env_resume true) "./ckpt" = true).
Proof.
  apply (main_train_model_path (example_env_resume true) (Some "./ckpt")).
  vm_compute. tauto.
Defined.

(** The directory test matters: the same command line with [./ckpt]
    missing trains from [None]. *)
Example main_train_model_path_missing :
  In (trainer_train None) (calls (snd (run (example_env_resume false)))).
Proof. vm_compute. tauto. Qed.

(** ** Seeding *)

(** Whatever the libraries do, a run that constructs anything (a reader,
    a loader, the configuration, the model, the trainer) has called
    [set_seed] with the seed of the training arguments before, and
    [set_seed] did not raise. *)
Theorem main_seeds_before_construction env c :
  In c (calls (snd (run env))) ->
  is_construction c = true ->
  exists before after,
    calls (snd (run env))
    = before ++ set_seed (seed (training_args_of env)) :: after
    /\ In c after
    /\ existsb is_construction before = false.
Proof.
  intros Hin Hc.
  destruct (run_satisfies_post env) as (_ & [k Hk] & _).
  rewrite Hk in *. clear Hk. revert Hin.
  unfold intended_calls, setup_calls.
  destruct k as [| [| [| [| [| k]]]]]; simpl;
    try (intros H;
         repeat (destruct H as [H | H]; [subst c; discriminate Hc |]);
         destruct H).
  intros H.
  repeat (destruct H as [H | H]; [subst c; discriminate Hc |]).
  eexists [_; _; _; _], _. split; [reflexivity |]. split; [exact H | reflexivity].
Qed.

Lemma main_seeds_before_construction_witness :
  exists before after,
    calls (snd (run (example_env None false false false true)))
    = before ++ set_seed 42 :: after
    /\ In (XLNetLMHeadModel_init config) after
    /\ existsb is_construction before = false.
Proof.
  apply (main_seeds_before_construction
           (example_env None false false false true)
           (XLNetLMHeadModel_init config)).
  - vm_compute. tauto.
  - reflexivity.
Defined.

(** ** What a run depends on *)

Lemma bind_same {A B : Type} (m1 m2 : M A) (k1 k2 : A -> M B) w :
  m1 w = m2 w ->
  (forall a w', k1 a w' = k2 a w') ->
  (m1 ≫= k1) w = (m2 ≫= k2) w.
Proof.
  intros Hm Hk. unfold mbind, M_bind. rewrite Hm.
  destruct (m2 w) as [[a | e] w']; auto.
Qed.

Lemma ext_same env1 env2 c w :
  (forall c, lib_raises env1 c = lib_raises env2 c) ->
  ext env1 c w = ext env2 c w.
Proof. intros H. unfold ext. rewrite H. reflexivity. Qed.

Lemma load_unbound_bind {B : Type} x (k : unit -> M B) w :
  bound x = false ->
  (load_globals [x] ≫= k) w = (Raised (NameError x), w).
Proof.
  intros Hb. unfold load_globals, load_global. simpl.
  unfold mbind, M_bind. rewrite Hb. reflexivity.
Qed.

Lemma get_files_same env1 env2 data_paths :
  Forall (fun path => glob_glob env1 (path +:+ "/*.parquet")
                      = glob_glob env2 (path +:+ "/*.parquet")) data_paths ->
  get_files env1 data_paths = get_files env2 data_paths.
Proof.
  induction 1 as [| path data_paths Hp _ IH]; [reflexivity |].
  rewrite !get_files_cons, Hp, IH. reflexivity.
Qed.

Lemma bind_bind_same {A B C : Type} (m1 m2 : M A) (f1 f2 : A -> M B)
  (g1 g2 : B -> M C) w :
  m1 w = m2 w ->
  (forall a w', (f1 a ≫= g1) w' = (f2 a ≫= g2) w') ->
  ((m1 ≫= f1) ≫= g1) w = ((m2 ≫= f2) ≫= g2) w.
Proof.
  intros Hm Hk. unfold mbind, M_bind in *. rewrite Hm.
  destruct (m2 w) as [[a | e] w']; auto.
Qed.

Lemma ret_bind {A B : Type} (a : A) (k : A -> M B) w :
  (mret a ≫= k) w = k a w.
Proof. reflexivity. Qed.

(** Both sides run the same statements; they can only differ in what the
    two environments answer, which [rw] rewrites. *)
Ltac same_step Hlib rw :=
  cbv beta iota zeta;
  lazymatch goal with
  | |- ext _ ?c _ = ext _ ?c _ => apply ext_same; exact Hlib
  | |- (load_globals ["math"] ≫= _) _ = (load_globals ["math"] ≫= _) _ =>
      rewrite !(load_unbound_bind "math") by reflexivity; reflexivity
  | |- (mret _ ≫= _) _ = (mret _ ≫= _) _ => rewrite !ret_bind
  | |- ((_ ≫= _) ≫= _) _ = ((_ ≫= _) ≫= _) _ =>
      apply bind_bind_same; [| intros ? ?]
  | |- (_ ≫= _) _ = (_ ≫= _) _ => apply bind_same; [| intros ? ?]
  | |- (if ?b then _ else _) _ = (if ?b then _ else _) _ => destruct b
  | |- (match ?x with _ => _ end) _ = (match ?x with _ => _ end) _ =>
      destruct x
  | |- ?m ?w = ?m ?w => reflexivity
  | |- _ => progress rw
  end.

(** The run is a function of what [same_inputs] lists: it depends on no
    other model argument, on no other path of the file system, and not on
    the evaluation output. *)
Theorem main_depends_only_on_inputs env1 env2 :
  same_inputs env1 env2 -> run env1 = run env2.
Proof.
  unfold same_inputs, training_args_of, model_args_of.
  intros (Hta & Hname & Hex & Hls & Hdir & Hglob & Hlib & Hm).
  apply Forall_app in Hglob as [Hgt Hge].
  apply get_files_same in Hgt, Hge.
  unfold run, main, parse.
  destruct (parsed_args env1) as [ma1 ta1], (parsed_args env2) as [ma2 ta2].
  cbn [fst snd] in *. subst ta2.
  unfold check_output_dir, setup_logging, make_loaders, make_trainer,
    training, evaluation, __init__.
  repeat same_step Hlib
    ltac:(rewrite <- ?Hex, <- ?Hls, <- ?Hname, <- ?Hgt, <- ?Hge, <- ?Hm).
  rewrite (Hdir _ eq_refl). reflexivity.
Qed.

Lemma main_depends_only_on_inputs_witness :
  run (example_env None false true false true) = run example_env_variant.
Proof.
  apply (main_depends_only_on_inputs
           (example_env None false true false true) example_env_variant).
  repeat split; try reflexivity.
  - intros p Hp. discriminate Hp.
  - repeat constructor.
Defined.
